(** * Arabycia: the orchestration class [Arabica] of [Arabycia.py]

    The class calls external collaborators (morphological analyzer, stemmer,
    transliteration table, sentence segmenter) and reshapes what they return.
    The collaborators are parameters of the development; the methods of the
    class are embedded statement by statement in a small state-and-exception
    monad over the attributes the class reads and writes. [tokenization],
    [stemming], [lemmatization] and [segmentation] hand their argument to a
    collaborator and touch no attribute; they are left out. *)

From Stdlib Require Import ZArith NArith Ascii String.
From stdpp Require Import base option list gmap.

Local Open Scope nat_scope.

(** ** Python values *)

(** A Python [str] is a sequence of Unicode code points. *)
Abbreviation pystr := (list N).

(** The source file is UTF-8 ([# -*- coding: utf-8 -*-]); [py] reads a literal
    of the source the way Python does, decoding its bytes to code points. *)
Definition cont (a : ascii) : N := N.land (N_of_ascii a) 63.

Fixpoint utf8_decode (bs : list ascii) : pystr :=
  match bs with
  | [] => []
  | a :: bs1 =>
    let n := N_of_ascii a in
    if (n <? 128)%N then n :: utf8_decode bs1
    else if (n <? 224)%N then
      match bs1 with
      | b :: bs2 => (N.land n 31 * 64 + cont b)%N :: utf8_decode bs2
      | _ => [n]
      end
    else if (n <? 240)%N then
      match bs1 with
      | b :: c :: bs3 =>
        (N.land n 15 * 4096 + cont b * 64 + cont c)%N :: utf8_decode bs3
      | _ => [n]
      end
    else
      match bs1 with
      | b :: c :: d :: bs4 =>
        (N.land n 7 * 262144 + cont b * 4096 + cont c * 64 + cont d)%N
          :: utf8_decode bs4
      | _ => [n]
      end
  end.

Definition py (s : string) : pystr := utf8_decode (list_ascii_of_string s).

(** The exceptions the embedded statements can raise, the spec's [InputError]
    (which no statement of the source raises), and [OSError] for the file
    system. *)
Inductive exn : Set :=
  | ValueError | KeyError | IndexError | TypeError | InputError | OSError.

#[global] Instance exn_eq_dec : EqDecision exn.
Proof. solve_decision. Defined.

Inductive result (A : Type) : Type :=
  | Return (a : A)
  | Raise (e : exn).
Arguments Return {A} a.
Arguments Raise {A} e.

(** A subscript: an [int] or a [str]. *)
Inductive subscript : Type :=
  | KInt (z : Z)
  | KStr (s : pystr).

(** [l[k]] on a list: negative indices count from the end, anything outside
    the list raises [IndexError], a [str] subscript raises [TypeError]. *)
Definition list_getitem {A} (l : list A) (k : subscript) : result A :=
  match k with
  | KInt z =>
    let i := if (z <? 0)%Z then (z + Z.of_nat (length l))%Z else z in
    if (i <? 0)%Z then Raise IndexError
    else match l !! Z.to_nat i with
         | Some x => Return x
         | None => Raise IndexError
         end
  | KStr _ => Raise TypeError
  end.

(** [s[k]] on a [str]: a [str] of length one. *)
Definition str_getitem (s : pystr) (k : subscript) : result pystr :=
  match list_getitem s k with
  | Return c => Return [c]
  | Raise e => Raise e
  end.

(** A candidate solution of the analyzer: a [dict] whose keys and values are
    [str]. *)
Abbreviation candidate := (gmap pystr pystr).

(** [d[k]] on such a dict: an absent key raises [KeyError]; an [int] is never
    among its keys. *)
Definition dict_getitem (d : candidate) (k : subscript) : result pystr :=
  match k with
  | KStr s => match d !! s with
              | Some v => Return v
              | None => Raise KeyError
              end
  | KInt _ => Raise KeyError
  end.

(** [d.items()]. Python yields the items in insertion order, the map in its
    own; the keys are distinct either way, which is all the loop of
    [data_process] depends on ([items_fold]). *)
Definition items (d : candidate) : list (pystr * pystr) := map_to_list d.

(** [range(a, b)] *)
Definition range (a b : nat) : list nat := seq a (b - a).

(** [a, b = l]: the right-hand side must hold exactly two items. *)
Definition unpack2 {A} (l : list A) : result (A * A) :=
  match l with
  | [a; b] => Return (a, b)
  | _ => Raise ValueError
  end.

(** [len(set(l))] *)
Definition len_set (l : list pystr) : nat :=
  size (list_to_set l : gset pystr).

(** ** Records *)

(** The dict literal of [data_process]. *)
Module Processed.
Record t : Type := mk {
  transl : pystr;
  arabic : pystr;
  solution : list pystr;
  pos : list pystr;
  gloss : list pystr
}.
End Processed.

(** The dict literal of [extract_data]. *)
Module Extracted.
Record t : Type := mk {
  arabic : pystr;
  transl : pystr;
  root : pystr;
  root_transl : pystr;
  candidates : list pystr
}.
End Extracted.

(** ** Collaborators *)

(** [pyaramorph.Analyzer().analyze_text] returns a pair: for each token the
    list of its candidate solutions, and a list of raw candidate strings.
    The text handed to it is [self.raw_data], which may be [None]. *)
Record collaborators : Type := {
  analyzer_analyze_text :
    option pystr -> result (list (list candidate) * list pystr);
  stemmer_stem : pystr -> pystr;
  uni2buck : pystr -> pystr;
  buck2uni : pystr -> pystr;
  segmenter_tokenize : pystr -> list pystr;
  open_read : pystr -> result pystr
}.

(** ** The attributes *)

(** [corpus] starts as the [str] [''] and is rebound to a list of sentences. *)
Inductive corpus_value : Type :=
  | CorpusStr (s : pystr)
  | CorpusSents (l : list pystr).

(** What [self.x = v] binds: the attributes of one instance. An attribute the
    instance has not bound reads as the class attribute, [None], [''] or an
    empty list; none of those lists is ever mutated. *)
Record instance : Type := {
  raw_data : option pystr;
  corpus : corpus_value;
  full_analyzed_data : list (list candidate);
  processed_data : list Processed.t
}.

(** The two list objects created once in the class body,
    [analyzed_data = []] and [ambig_words = []]. No statement of the class
    assigns either name, so [self.analyzed_data] and [self.ambig_words]
    resolve to these objects through every instance, and [append] mutates
    them in place. *)
Record class_lists : Type := {
  analyzed_data : list Extracted.t;
  ambig_words : list pystr
}.

Record state : Type := {
  self : instance;
  cls : class_lists
}.

(** [Arabica(raw_data)] *)
Definition init (raw : option pystr) : instance :=
  {| raw_data := raw;
     corpus := CorpusStr [];
     full_analyzed_data := [];
     processed_data := [] |}.

(** ** The monad: state, and exceptions that keep the state reached *)

Definition M (A : Type) : Type := state -> result A * state.

Definition ret {A} (a : A) : M A := fun st => (Return a, st).

Definition bind {A B} (m : M A) (k : A -> M B) : M B :=
  fun st =>
    match m st with
    | (Return a, st1) => k a st1
    | (Raise e, st1) => (Raise e, st1)
    end.

Definition lift {A} (r : result A) : M A := fun st => (r, st).

Definition get_self : M instance := fun st => (Return (self st), st).

Definition get_cls : M class_lists := fun st => (Return (cls st), st).

Declare Scope py_scope.
Delimit Scope py_scope with py_scope.
Notation "x <- m ;; k" := (bind m (fun x => k))
  (at level 100, m at next level, right associativity) : py_scope.
Notation "m ;;; k" := (bind m (fun _ => k))
  (at level 100, right associativity) : py_scope.
Local Open Scope py_scope.

(** [for x in xs: body], the local variables the body assigns threaded
    through as [s]. *)
Fixpoint for_in {A S} (xs : list A) (body : A -> S -> M S) (s : S) : M S :=
  match xs with
  | [] => ret s
  | x :: xs1 => s1 <- body x s ;; for_in xs1 body s1
  end.

(** [self.full_analyzed_data = v] *)
Definition set_full_analyzed_data (v : list (list candidate)) : M unit :=
  fun st =>
    (Return tt,
     {| self := {| raw_data := raw_data (self st);
                   corpus := corpus (self st);
                   full_analyzed_data := v;
                   processed_data := processed_data (self st) |};
        cls := cls st |}).

(** [self.processed_data = v] *)
Definition set_processed_data (v : list Processed.t) : M unit :=
  fun st =>
    (Return tt,
     {| self := {| raw_data := raw_data (self st);
                   corpus := corpus (self st);
                   full_analyzed_data := full_analyzed_data (self st);
                   processed_data := v |};
        cls := cls st |}).

(** [self.corpus = v] *)
Definition set_corpus (v : corpus_value) : M unit :=
  fun st =>
    (Return tt,
     {| self := {| raw_data := raw_data (self st);
                   corpus := v;
                   full_analyzed_data := full_analyzed_data (self st);
                   processed_data := processed_data (self st) |};
        cls := cls st |}).

(** [self.analyzed_data.append(r)] *)
Definition analyzed_data_append (r : Extracted.t) : M unit :=
  fun st =>
    (Return tt,
     {| self := self st;
        cls := {| analyzed_data := analyzed_data (cls st) ++ [r];
                  ambig_words := ambig_words (cls st) |} |}).

(** [self.ambig_words.append(w)] *)
Definition ambig_words_append (w : pystr) : M unit :=
  fun st =>
    (Return tt,
     {| self := self st;
        cls := {| analyzed_data := analyzed_data (cls st);
                  ambig_words := ambig_words (cls st) ++ [w] |} |}).

(** ** The methods of [Arabica] *)

(** The local variables [eg], [ar], [solution], [pos], [gloss] of
    [data_process]. *)
Record locals : Type := {
  eg : pystr;
  ar : pystr;
  l_solution : list pystr;
  l_pos : list pystr;
  l_gloss : list pystr
}.

(** The five [if] statements of the innermost loop, for one item [k, v]. *)
Definition item_step (kv : pystr * pystr) (loc : locals) : locals :=
  let '(k, v) := kv in
  let eg1 := if decide (k = py "transl") then v else eg loc in
  let ar1 := if decide (k = py "arabic") then v else ar loc in
  let solution1 :=
    if decide (k = py "solution") then l_solution loc ++ [v]
    else l_solution loc in
  let pos1 := if decide (k = py "pos") then l_pos loc ++ [v] else l_pos loc in
  let gloss1 :=
    if decide (k = py "gloss") then l_gloss loc ++ [v] else l_gloss loc in
  {| eg := eg1; ar := ar1; l_solution := solution1; l_pos := pos1;
     l_gloss := gloss1 |}.

Section Arabica.
Context (lib : collaborators).

Definition transliteration (s : pystr) : pystr := uni2buck lib s.

Definition reverse_transliteration (s : pystr) : pystr := buck2uni lib s.

(** [str(self.stemmer.stem(word))] *)
Definition stem (word : pystr) : pystr := stemmer_stem lib word.

Definition data_process : M unit :=
  i <- get_self ;;
  let data := full_analyzed_data i in
  all <- for_in (range 0 (length data)) (fun ele all =>
    tok <- lift (list_getitem data (KInt (Z.of_nat ele))) ;;
    loc <- for_in (range 0 (length tok)) (fun i loc =>
        c <- lift (list_getitem tok (KInt (Z.of_nat i))) ;;
        for_in (items c) (fun kv loc => ret (item_step kv loc)) loc)
      {| eg := []; ar := []; l_solution := []; l_pos := [];
         l_gloss := [] |} ;;
    let temp :=
      {| Processed.transl := eg loc; Processed.arabic := ar loc;
         Processed.solution := l_solution loc; Processed.pos := l_pos loc;
         Processed.gloss := l_gloss loc |} in
    ret (all ++ [temp])) [] ;;
  set_processed_data all.

Definition analyze_text : M (list (list candidate)) :=
  i <- get_self ;;
  data <- lift (analyzer_analyze_text lib (raw_data i)) ;;
  set_full_analyzed_data (fst data) ;;;
  data_process ;;;
  i <- get_self ;;
  ret (full_analyzed_data i).

Definition pam_stem (str : pystr) : M (list pystr) :=
  r <- lift (analyzer_analyze_text lib (Some str)) ;;
  let data := snd r in
  for_in data (fun i stems => ret (stems ++ [reverse_transliteration i])) [].

(** The expression [data[i][0][key]] of [extract_data]. [data] is the first
    of the two items [analyze_text()] was unpacked into, so [data[i]] is a
    candidate mapping and [data[i][0]] subscripts that mapping. *)
Definition first_field (data : list candidate) (i : nat) (key : string)
  : M pystr :=
  c <- lift (list_getitem data (KInt (Z.of_nat i))) ;;
  c0 <- lift (dict_getitem c (KInt 0)) ;;
  lift (str_getitem c0 (KStr (py key))).

Definition extract_data : M (list Extracted.t) :=
  full <- analyze_text ;;
  p <- lift (unpack2 full) ;;
  let data := fst p in
  for_in (range 0 (length data)) (fun i (_ : unit) =>
    tans <- first_field data i "transl" ;;
    word <- first_field data i "arabic" ;;
    arabic <- first_field data i "arabic" ;;
    let root := stem arabic in
    possible_root <- pam_stem word ;;
    let rtrans := transliteration root in
    analyzed_data_append
      {| Extracted.arabic := word; Extracted.transl := tans;
         Extracted.root := root; Extracted.root_transl := rtrans;
         Extracted.candidates := possible_root |}) tt ;;;
  k <- get_cls ;;
  ret (analyzed_data k).

(** [print] writes to standard output only and is left out. *)
Definition search (key : pystr) : M (gset pystr) :=
  let key := transliteration (stem key) in
  data <- extract_data ;;
  result <- for_in (range 0 (length data)) (fun i result =>
    r <- lift (list_getitem data (KInt (Z.of_nat i))) ;;
    if decide (Extracted.root_transl r = key)
    then ret (result ++ [Extracted.arabic r])
    else ret result) [] ;;
  ret (list_to_set result).

Definition load_corpus (filename : pystr) : M unit :=
  content <- lift (open_read lib filename) ;;
  let segm_sent := segmenter_tokenize lib content in
  set_corpus (CorpusSents segm_sent).

Definition ambig : M unit :=
  i <- get_self ;;
  for_in (processed_data i) (fun w (_ : unit) =>
    temp <- for_in (Processed.solution w) (fun sol temp =>
        c <- lift (str_getitem sol (KInt 2)) ;;
        ret (temp ++ [c])) [] ;;
    if decide (1 < len_set temp)
    then ambig_words_append (Processed.arabic w)
    else ret tt) tt.

End Arabica.

(** ** Several instances *)

(** The class object with its two lists, and the instances by reference. *)
Record world : Type := {
  Arabica : class_lists;
  heap : gmap nat instance
}.

Inductive call : Type :=
  | Call_analyze_text
  | Call_extract_data
  | Call_pam_stem (str : pystr)
  | Call_search (key : pystr)
  | Call_data_process
  | Call_load_corpus (filename : pystr)
  | Call_ambig.

Definition discard {A} (m : M A) : M unit := bind m (fun _ => ret tt).

Definition run (lib : collaborators) (c : call) : M unit :=
  match c with
  | Call_analyze_text => discard (analyze_text lib)
  | Call_extract_data => discard (extract_data lib)
  | Call_pam_stem str => discard (pam_stem lib str)
  | Call_search key => discard (search lib key)
  | Call_data_process => data_process
  | Call_load_corpus filename => load_corpus lib filename
  | Call_ambig => ambig
  end.

(** [a.method(...)], whether it returns or raises. *)
Definition invoke (lib : collaborators) (a : nat) (c : call) (w : world)
  : world :=
  match heap w !! a with
  | Some i =>
    let st := snd (run lib c {| self := i; cls := Arabica w |}) in
    {| Arabica := cls st; heap := <[a := self st]> (heap w) |}
  | None => w
  end.

Definition invoke_all (lib : collaborators) (a : nat) (cs : list call)
  (w : world) : world :=
  foldl (fun w1 c => invoke lib a c w1) w cs.

(** The cached fields as read through the instance [b]:
    [b.processed_data], [b.analyzed_data], [b.ambig_words], [b.corpus]. *)
Definition observe (b : nat) (w : world)
  : option (list Processed.t * list Extracted.t * list pystr * corpus_value) :=
  match heap w !! b with
  | Some i =>
    Some (processed_data i, analyzed_data (Arabica w),
          ambig_words (Arabica w), corpus i)
  | None => None
  end.

(** ** Vocabulary of the statements *)

(** A candidate mapping that carries the five expected keys. *)
Definition carries_keys (c : candidate) : Prop :=
  is_Some (c !! py "transl") /\ is_Some (c !! py "arabic") /\
  is_Some (c !! py "solution") /\ is_Some (c !! py "pos") /\
  is_Some (c !! py "gloss").

#[global] Instance carries_keys_dec (c : candidate) : Decision (carries_keys c).
Proof. unfold carries_keys. apply _. Defined.

(** The candidate solutions of a record take more than one value at
    position 2. *)
Definition disagrees (w : Processed.t) : Prop :=
  Exists (fun s1 : pystr =>
            Exists (fun s2 : pystr => s1 !! 2 <> s2 !! 2)
                   (Processed.solution w))
         (Processed.solution w).

#[global] Instance disagrees_dec (w : Processed.t) : Decision (disagrees w).
Proof. unfold disagrees. apply _. Defined.

(** Every candidate solution string of every record has a position 2. *)
Definition indexable (pd : list Processed.t) : Prop :=
  Forall (fun w => Forall (fun s : pystr => 3 <= length s)
                          (Processed.solution w)) pd.

(** What one candidate mapping leaves in the local variables once its items
    have been walked: a scalar is overwritten when the key is there, a list
    gains the value when the key is there. *)
Definition absorb (c : candidate) (loc : locals) : locals :=
  {| eg := default (eg loc) (c !! py "transl");
     ar := default (ar loc) (c !! py "arabic");
     l_solution := l_solution loc ++ option_list (c !! py "solution");
     l_pos := l_pos loc ++ option_list (c !! py "pos");
     l_gloss := l_gloss loc ++ option_list (c !! py "gloss") |}.

Definition no_locals : locals :=
  {| eg := []; ar := []; l_solution := []; l_pos := []; l_gloss := [] |}.

(** The record of one token, from its candidates in order. *)
Definition reshape (cs : list candidate) : Processed.t :=
  let loc := foldl (fun loc c => absorb c loc) no_locals cs in
  {| Processed.transl := eg loc; Processed.arabic := ar loc;
     Processed.solution := l_solution loc; Processed.pos := l_pos loc;
     Processed.gloss := l_gloss loc |}.

(** One turn of the outer loop of [ambig]. *)
Abbreviation ambig_turn :=
  (fun (w : Processed.t) (_ : unit) =>
     temp <- for_in (Processed.solution w)
               (fun sol temp1 => c <- lift (str_getitem sol (KInt 2)) ;;
                                 ret (temp1 ++ [c])) [] ;;
     if decide (1 < len_set temp)
     then ambig_words_append (Processed.arabic w)
     else ret tt).

(** The state once [ws] have been appended to [ambig_words], one by one. *)
Definition append_words (ws : list pystr) (st : state) : state :=
  {| self := self st;
     cls := {| analyzed_data := analyzed_data (cls st);
               ambig_words := ambig_words (cls st) ++ ws |} |}.

(** The state once an analysis [d] has been cached and reshaped. *)
Definition cache (d : list (list candidate)) (st : state) : state :=
  {| self := {| raw_data := raw_data (self st);
                corpus := corpus (self st);
                full_analyzed_data := d;
                processed_data := reshape <$> d |};
     cls := cls st |}.

(** ** A recorded fixture *)

Definition split_spaces (txt : pystr) : list pystr :=
  let '(toks, cur) :=
    foldl (fun (acc : list pystr * pystr) (c : N) =>
             if decide (c = 32%N)
             then (if decide (snd acc = []) then fst acc
                   else fst acc ++ [snd acc], [])
             else (fst acc, snd acc ++ [c]))
          ([], []) txt in
  if decide (cur = []) then toks else toks ++ [cur].

Definition entry (arabic transl solution pos gloss : string) : candidate :=
  <[py "arabic" := py arabic]>
    (<[py "transl" := py transl]>
       (<[py "solution" := py solution]>
          (<[py "pos" := py pos]> (<[py "gloss" := py gloss]> ∅)))).

(** Candidates and raw root strings by word; a word outside the lexicon has
    no candidate. *)
Definition lexicon : list (pystr * (list candidate * list pystr)) :=
  [ (py "كيف",
     ([entry "كيف" "kyf" "kayofa" "kayofa/INTERROG_PART" "how"],
      [py "kyf"]));
    (py "كتب",
     ([entry "كتب" "ktb" "kataba" "katab/VERB_PERFECT" "write";
       entry "كتب" "ktb" "kutub" "kutub/NOUN" "books"],
      [py "ktb"]));
    (py "اخر",
     ([entry "اخر" "Axr" "|xar" "|xar/ADJ" "other";
       entry "اخر" "Axr" "|xir" "|xir/ADJ" "last";
       entry "اخر" "Axr" ">ax~ara" ">ax~ar/VERB_PERFECT" "delay"],
      [py "Axr"; py ">xr"]));
    (py "الى",
     ([entry "الى" "AlY" "|liy~" "|liy~/ADJ" "mechanical";
       entry "إلى" "<lY" "<ilaY" "<ilaY/PREP" "to"],
      [py "AlY"; py "<lY"]));
    (py "و",
     ([entry "و" "w" "wa" "wa/CONJ" "and"],
      [py "w"])) ].

Definition lexicon_find (w : pystr) : list candidate * list pystr :=
  match list_find (fun e : pystr * (list candidate * list pystr) =>
                     fst e = w) lexicon with
  | Some (_, e) => snd e
  | None => ([], [])
  end.

(** An analyzer with that lexicon; it raises [TypeError] when handed [None]
    where it expects text. *)
Definition fixture_analyze_text (txt : option pystr)
  : result (list (list candidate) * list pystr) :=
  match txt with
  | None => Raise TypeError
  | Some t =>
    let toks := split_spaces t in
    Return (fmap (fun w => fst (lexicon_find w)) toks,
            concat (fmap (fun w => snd (lexicon_find w)) toks))
  end.

(** The Buckwalter letters the lexicon uses. *)
Definition buckwalter : list (N * N) :=
  [ (1575, 65); (1576, 98); (1578, 116); (1582, 120); (1585, 114);
    (1601, 102); (1603, 107); (1608, 119); (1610, 121) ]%N.

Definition fixture_uni2buck (s : pystr) : pystr :=
  fmap (fun c => match list_find (fun p : N * N => fst p = c) buckwalter with
                 | Some (_, p) => snd p
                 | None => c
                 end) s.

Definition fixture_buck2uni (s : pystr) : pystr :=
  fmap (fun c => match list_find (fun p : N * N => snd p = c) buckwalter with
                 | Some (_, p) => fst p
                 | None => c
                 end) s.

Definition fixture : collaborators :=
  {| analyzer_analyze_text := fixture_analyze_text;
     stemmer_stem := fun w => w;
     uni2buck := fixture_uni2buck;
     buck2uni := fixture_buck2uni;
     segmenter_tokenize := fun t => [t];
     open_read := fun _ => Raise OSError |}.

(** The class as the class body leaves it, and an instance on it. *)
Definition fresh_lists : class_lists :=
  {| analyzed_data := []; ambig_words := [] |}.

Definition fresh (raw : option pystr) : state :=
  {| self := init raw; cls := fresh_lists |}.

(** That instance once [analyze_text()] has run on the fixture. *)
Definition analyzed (txt : string) : state :=
  snd (analyze_text fixture (fresh (Some (py txt)))).

(** An instance on a class whose [analyzed_data] already holds records. *)
Definition sample_records : list Extracted.t :=
  [ {| Extracted.arabic := py "كتب"; Extracted.transl := py "ktb";
       Extracted.root := py "كتب"; Extracted.root_transl := py "ktb";
       Extracted.candidates := [py "كتب"] |};
    {| Extracted.arabic := py "كيف"; Extracted.transl := py "kyf";
       Extracted.root := py "كيف"; Extracted.root_transl := py "kyf";
       Extracted.candidates := [py "كيف"] |};
    {| Extracted.arabic := py "كتب"; Extracted.transl := py "ktb";
       Extracted.root := py "كتب"; Extracted.root_transl := py "ktb";
       Extracted.candidates := [py "كتب"] |} ].

Definition with_records (raw : option pystr) : state :=
  {| self := init raw;
     cls := {| analyzed_data := sample_records; ambig_words := [] |} |}.

(** Two instances of the class, nothing called yet. *)
Definition two_instances : world :=
  {| Arabica := fresh_lists;
     heap := <[0 := init (Some (py "كيف اخر"))]>
               (<[1 := init (Some (py "كتب"))]> ∅) |}.

(** ** The statements at module level *)

(** [text = ...], the sentence the module analyses when it is loaded. *)
Definition text : pystr := py "كيف تحولت من مدينة للانوار إِلَى الاشباح".

(** [arab = Arabica(text)], [arab.analyze_text()], [arab.ambig()]: an
    exception of the first call ends the script before the second. *)
Definition module_script (lib : collaborators) : result unit * state :=
  (analyze_text lib ;;; ambig) (fresh (Some text)).

(** ** More vocabulary *)

(** The records the outer loop of [ambig] gets through: those before the
    first one with a solution string shorter than 3. *)
Fixpoint visited (pd : list Processed.t) : list Processed.t :=
  match pd with
  | [] => []
  | w :: pd1 =>
    if decide (Forall (fun s : pystr => 3 <= length s) (Processed.solution w))
    then w :: visited pd1
    else []
  end.

(** Two candidate mappings that agree on the five keys [data_process]
    compares with. *)
Definition same_fields (c1 c2 : candidate) : Prop :=
  c1 !! py "transl" = c2 !! py "transl"
  /\ c1 !! py "arabic" = c2 !! py "arabic"
  /\ c1 !! py "solution" = c2 !! py "solution"
  /\ c1 !! py "pos" = c2 !! py "pos"
  /\ c1 !! py "gloss" = c2 !! py "gloss".

#[global] Instance same_fields_dec (c1 c2 : candidate) :
  Decision (same_fields c1 c2).
Proof. unfold same_fields. apply _. Defined.

(** Every solution string the analyzer returned has a position 2. *)
Definition solutions_indexable (d : list (list candidate)) : Prop :=
  Forall (Forall (fun c : candidate =>
                    from_option (fun s : pystr => 3 <= length s) True
                                (c !! py "solution"))) d.

#[global] Instance solutions_indexable_dec (d : list (list candidate)) :
  Decision (solutions_indexable d).
Proof.
  unfold solutions_indexable.
  apply Forall_dec. intros cs. apply Forall_dec. intros c.
  destruct (c !! py "solution"); simpl; apply _.
Defined.

(** An instance holding the analysis [d], nothing reshaped yet. *)
Definition holding (d : list (list candidate)) : state :=
  {| self := {| raw_data := None;
                corpus := CorpusStr [];
                full_analyzed_data := d;
                processed_data := [] |};
     cls := fresh_lists |}.

(** The fixture with two files to read. *)
Definition fixture_open_read (filename : pystr) : result pystr :=
  if decide (filename = py "4.txt") then Return (py "كيف كتب. اخر")
  else if decide (filename = py "5.txt") then Return (py "و")
  else Raise OSError.

Definition fixture_files : collaborators :=
  {| analyzer_analyze_text := fixture_analyze_text;
     stemmer_stem := fun w => w;
     uni2buck := fixture_uni2buck;
     buck2uni := fixture_buck2uni;
     segmenter_tokenize := fun t => [t];
     open_read := fixture_open_read |}.

(** * Properties *)

Arguments py : simpl never.

(** ** Loops and subscripts *)

Arguments list_getitem : simpl never.
Arguments str_getitem : simpl never.
Arguments dict_getitem : simpl never.
Arguments bind : simpl never.
Arguments lift : simpl never.
Arguments ret : simpl never.

Lemma bind_unfold {A B} (m : M A) (k : A -> M B) (st : state) :
  bind m k st
  = match m st with
    | (Return a, st1) => k a st1
    | (Raise e, st1) => (Raise e, st1)
    end.
Proof. reflexivity. Qed.

Lemma bind_lift {A B} (r : result A) (k : A -> M B) (st : state) :
  bind (lift r) k st
  = match r with Return a => k a st | Raise e => (Raise e, st) end.
Proof. reflexivity. Qed.

Lemma bind_ret {A B} (a : A) (k : A -> M B) (st : state) :
  bind (ret a) k st = k a st.
Proof. reflexivity. Qed.

Lemma bind_assoc {A B C} (m : M A) (f : A -> M B) (g : B -> M C)
    (st : state) :
  bind (bind m f) g st = bind m (fun x => bind (f x) g) st.
Proof. unfold bind. by destruct (m st) as [[a|e] st1]. Qed.

Lemma for_in_ret {A S} (f : A -> S -> S) (xs : list A) (s : S) (st : state) :
  for_in xs (fun x s1 => ret (f x s1)) s st
  = (Return (foldl (fun s1 x => f x s1) s xs), st).
Proof.
  revert s. induction xs as [|x xs IH]; intros s; simpl; [done|].
  rewrite bind_ret. apply IH.
Qed.

Lemma list_getitem_nat {A} (l : list A) (i : nat) :
  list_getitem l (KInt (Z.of_nat i))
  = match l !! i with Some x => Return x | None => Raise IndexError end.
Proof.
  unfold list_getitem.
  destruct (Z.ltb_spec (Z.of_nat i) 0) as [Hneg|_]; [lia|].
  destruct (Z.ltb_spec (Z.of_nat i) 0) as [Hneg|_]; [lia|].
  by rewrite Nat2Z.id.
Qed.

(** [for i in range(0, len(l))] with [l[i]] read first visits the items of
    [l] in order and never leaves the list. *)
Lemma for_in_range_from {A S} (body : A -> S -> M S) (l1 l2 : list A)
    (s : S) (st : state) :
  for_in (seq (length l1) (length l2))
    (fun i s1 => x <- lift (list_getitem (l1 ++ l2) (KInt (Z.of_nat i))) ;;
                 body x s1) s st
  = for_in l2 body s st.
Proof.
  revert l1 s st. induction l2 as [|x l2 IH]; intros l1 s st; simpl; [done|].
  rewrite bind_assoc, bind_lift, list_getitem_nat, list_lookup_middle by done.
  rewrite !(bind_unfold (body x s)).
  destruct (body x s st) as [[s1|e] st1]; [|done].
  specialize (IH (l1 ++ [x]) s1 st1).
  rewrite length_app, <- (assoc_L (++)) in IH. simpl in IH.
  by rewrite Nat.add_1_r in IH.
Qed.

Lemma for_in_range {A S} (body : A -> S -> M S) (l : list A) (s : S)
    (st : state) :
  for_in (range 0 (length l))
    (fun i s1 => x <- lift (list_getitem l (KInt (Z.of_nat i))) ;; body x s1)
    s st
  = for_in l body s st.
Proof.
  unfold range. rewrite Nat.sub_0_r. apply (for_in_range_from body [] l).
Qed.

Lemma bind_get_self {B} (k : instance -> M B) (st : state) :
  bind get_self k st = k (self st) st.
Proof. reflexivity. Qed.

Lemma bind_get_cls {B} (k : class_lists -> M B) (st : state) :
  bind get_cls k st = k (cls st) st.
Proof. reflexivity. Qed.

(** ** Reshaping *)

Lemma absorb_empty (loc : locals) : absorb ∅ loc = loc.
Proof.
  destruct loc. unfold absorb. rewrite !lookup_empty. simpl.
  by rewrite !app_nil_r.
Qed.

(** Walking the items of a mapping, whatever their order, leaves what
    [absorb] says: the keys of a mapping are distinct. *)
Lemma items_fold (l : list (pystr * pystr)) (loc : locals) :
  NoDup l.*1 ->
  foldl (fun loc1 kv => item_step kv loc1) loc l
  = absorb (list_to_map l) loc.
Proof.
  revert loc. induction l as [|[k v] l IH]; intros loc Hnd.
  { simpl. by rewrite absorb_empty. }
  apply NoDup_cons in Hnd as [Hk Hnd]. simpl foldl. rewrite IH by done.
  apply (not_elem_of_list_to_map_1 (M := gmap pystr)) in Hk. simpl in Hk.
  simpl list_to_map. unfold absorb, item_step. simpl.
  f_equal; case_decide as Heq;
    try (rewrite <- Heq, Hk, lookup_insert_eq; simpl; by rewrite ?app_nil_r);
    by rewrite lookup_insert_ne by done.
Qed.

Lemma items_absorb (c : candidate) (loc : locals) :
  foldl (fun loc1 kv => item_step kv loc1) loc (items c) = absorb c loc.
Proof.
  unfold items. rewrite items_fold by apply NoDup_fst_map_to_list.
  by rewrite list_to_map_to_list.
Qed.

Lemma candidates_loop (tok : list candidate) (loc : locals) (st : state) :
  for_in (range 0 (length tok))
    (fun i loc1 =>
       c <- lift (list_getitem tok (KInt (Z.of_nat i))) ;;
       for_in (items c) (fun kv loc2 => ret (item_step kv loc2)) loc1) loc st
  = (Return (foldl (fun loc1 c => absorb c loc1) loc tok), st).
Proof.
  rewrite for_in_range. revert loc.
  induction tok as [|c tok IH]; intros loc; simpl; [done|].
  rewrite bind_unfold, for_in_ret, items_absorb. apply IH.
Qed.

Lemma tokens_loop (data : list (list candidate)) (all : list Processed.t)
    (st : state) :
  for_in data
    (fun tok all1 =>
       loc <- for_in (range 0 (length tok))
                (fun i loc1 =>
                   c <- lift (list_getitem tok (KInt (Z.of_nat i))) ;;
                   for_in (items c) (fun kv loc2 => ret (item_step kv loc2))
                          loc1)
                {| eg := []; ar := []; l_solution := []; l_pos := [];
                   l_gloss := [] |} ;;
       let temp :=
         {| Processed.transl := eg loc; Processed.arabic := ar loc;
            Processed.solution := l_solution loc;
            Processed.pos := l_pos loc; Processed.gloss := l_gloss loc |} in
       ret (all1 ++ [temp])) all st
  = (Return (all ++ (reshape <$> data)), st).
Proof.
  revert all. induction data as [|tok data IH]; intros all; simpl.
  { by rewrite app_nil_r. }
  rewrite bind_assoc, bind_unfold, candidates_loop, bind_ret, IH.
  by rewrite <- (assoc_L (++)).
Qed.

(** [data_process] always returns, and binds [processed_data] to one record
    per token of [full_analyzed_data]. *)
Lemma data_process_spec (st : state) :
  data_process st
  = set_processed_data (reshape <$> full_analyzed_data (self st)) st.
Proof.
  unfold data_process. rewrite bind_get_self, bind_unfold.
  by rewrite for_in_range, tokens_loop.
Qed.

Lemma reshape_fold_solution (cs : list candidate) (loc : locals) :
  l_solution (foldl (fun loc1 c => absorb c loc1) loc cs)
  = l_solution loc ++ omap (fun c : candidate => c !! py "solution") cs.
Proof.
  revert loc. induction cs as [|c cs IH]; intros loc; simpl.
  { by rewrite app_nil_r. }
  rewrite IH. simpl. rewrite <- (assoc_L (++)).
  by destruct (c !! py "solution").
Qed.

Lemma reshape_fold_pos (cs : list candidate) (loc : locals) :
  l_pos (foldl (fun loc1 c => absorb c loc1) loc cs)
  = l_pos loc ++ omap (fun c : candidate => c !! py "pos") cs.
Proof.
  revert loc. induction cs as [|c cs IH]; intros loc; simpl.
  { by rewrite app_nil_r. }
  rewrite IH. simpl. rewrite <- (assoc_L (++)).
  by destruct (c !! py "pos").
Qed.

Lemma reshape_fold_gloss (cs : list candidate) (loc : locals) :
  l_gloss (foldl (fun loc1 c => absorb c loc1) loc cs)
  = l_gloss loc ++ omap (fun c : candidate => c !! py "gloss") cs.
Proof.
  revert loc. induction cs as [|c cs IH]; intros loc; simpl.
  { by rewrite app_nil_r. }
  rewrite IH. simpl. rewrite <- (assoc_L (++)).
  by destruct (c !! py "gloss").
Qed.

Lemma omap_total {A B} (f : A -> option B) (l : list A) :
  Forall (fun x => is_Some (f x)) l -> Some <$> omap f l = f <$> l.
Proof.
  induction 1 as [|x l [y Hy] _ IH]; simpl; [done|].
  rewrite Hy. simpl. by f_equal.
Qed.

Lemma omap_total_length {A B} (f : A -> option B) (l : list A) :
  Forall (fun x => is_Some (f x)) l -> length (omap f l) = length l.
Proof.
  intros H. apply omap_total in H.
  apply (f_equal length) in H. by rewrite !length_fmap in H.
Qed.

Lemma reshape_fold_scalars (cs : list candidate) (c : candidate)
    (loc : locals) (t a : pystr) :
  c !! py "transl" = Some t -> c !! py "arabic" = Some a ->
  eg (foldl (fun loc1 c1 => absorb c1 loc1) loc (cs ++ [c])) = t
  /\ ar (foldl (fun loc1 c1 => absorb c1 loc1) loc (cs ++ [c])) = a.
Proof.
  intros Ht Ha. rewrite foldl_app. simpl. by rewrite Ht, Ha.
Qed.

Lemma data_process_returns (st : state) : fst (data_process st) = Return tt.
Proof. by rewrite data_process_spec. Qed.

Lemma data_process_processed_data (st : state) :
  processed_data (self (snd (data_process st)))
  = reshape <$> full_analyzed_data (self st).
Proof. by rewrite data_process_spec. Qed.

(** C3. After [data_process], when every candidate mapping carries the five
    expected keys, [processed_data] holds one record per token and in each
    record [solution], [pos] and [gloss] have the same length, the number of
    candidates the analyzer produced for that token. *)
Theorem data_process_field_counts (st : state) :
  Forall (Forall carries_keys) (full_analyzed_data (self st)) ->
  fst (data_process st) = Return tt
  /\ Forall2
       (fun (cs : list candidate) (r : Processed.t) =>
          length (Processed.solution r) = length cs
          /\ length (Processed.pos r) = length cs
          /\ length (Processed.gloss r) = length cs)
       (full_analyzed_data (self st))
       (processed_data (self (snd (data_process st)))).
Proof.
  intros Hkeys. split; [apply data_process_returns|].
  rewrite data_process_processed_data. apply Forall2_fmap_r, Forall_Forall2_diag.
  eapply Forall_impl; [exact Hkeys|]. intros cs Hcs. unfold reshape. simpl.
  rewrite reshape_fold_solution, reshape_fold_pos, reshape_fold_gloss. simpl.
  repeat split; apply omap_total_length;
    (eapply Forall_impl; [exact Hcs|]); intros c (?&?&?&?&?); done.
Qed.

Lemma data_process_field_counts_witness :
  Forall (Forall carries_keys)
    (full_analyzed_data (self (analyzed "كيف اخر كتب")))
  /\ fst (data_process (analyzed "كيف اخر كتب")) = Return tt
  /\ Forall2
       (fun (cs : list candidate) (r : Processed.t) =>
          length (Processed.solution r) = length cs
          /\ length (Processed.pos r) = length cs
          /\ length (Processed.gloss r) = length cs)
       (full_analyzed_data (self (analyzed "كيف اخر كتب")))
       (processed_data (self (snd (data_process (analyzed "كيف اخر كتب"))))).
Proof.
  assert (Forall (Forall carries_keys)
            (full_analyzed_data (self (analyzed "كيف اخر كتب")))) as H.
  { apply (bool_decide_eq_true_1 _). vm_compute. reflexivity. }
  split; [exact H|]. exact (data_process_field_counts _ H).
Defined.

(** C4. For a token whose candidates are [cs ++ [c]], the record
    [data_process] builds keeps in [transl] and [arabic] the values of the
    last candidate [c], whatever the earlier candidates say, while
    [solution], [pos] and [gloss] list the values of all the candidates in
    order. *)
Theorem data_process_last_seen_wins (st : state) (k : nat)
    (cs : list candidate) (c : candidate) (t a : pystr) :
  full_analyzed_data (self st) !! k = Some (cs ++ [c]) ->
  c !! py "transl" = Some t ->
  c !! py "arabic" = Some a ->
  exists r : Processed.t,
    processed_data (self (snd (data_process st))) !! k = Some r
    /\ Processed.transl r = t
    /\ Processed.arabic r = a
    /\ Processed.solution r
       = omap (fun c1 : candidate => c1 !! py "solution") (cs ++ [c])
    /\ Processed.pos r
       = omap (fun c1 : candidate => c1 !! py "pos") (cs ++ [c])
    /\ Processed.gloss r
       = omap (fun c1 : candidate => c1 !! py "gloss") (cs ++ [c]).
Proof.
  intros Hk Ht Ha. exists (reshape (cs ++ [c])).
  rewrite data_process_processed_data, list_lookup_fmap, Hk.
  split; [done|]. unfold reshape. simpl.
  destruct (reshape_fold_scalars cs c no_locals t a Ht Ha) as [-> ->].
  by rewrite reshape_fold_solution, reshape_fold_pos, reshape_fold_gloss.
Qed.

Lemma data_process_last_seen_wins_witness :
  exists r : Processed.t,
    processed_data (self (snd (data_process (analyzed "كيف الى")))) !! 1
    = Some r
    /\ Processed.transl r = py "<lY"
    /\ Processed.arabic r = py "إلى"
    /\ Processed.solution r
       = omap (fun c1 : candidate => c1 !! py "solution")
           ([entry "الى" "AlY" "|liy~" "|liy~/ADJ" "mechanical"]
            ++ [entry "إلى" "<lY" "<ilaY" "<ilaY/PREP" "to"])
    /\ Processed.pos r
       = omap (fun c1 : candidate => c1 !! py "pos")
           ([entry "الى" "AlY" "|liy~" "|liy~/ADJ" "mechanical"]
            ++ [entry "إلى" "<lY" "<ilaY" "<ilaY/PREP" "to"])
    /\ Processed.gloss r
       = omap (fun c1 : candidate => c1 !! py "gloss")
           ([entry "الى" "AlY" "|liy~" "|liy~/ADJ" "mechanical"]
            ++ [entry "إلى" "<lY" "<ilaY" "<ilaY/PREP" "to"]).
Proof.
  apply (data_process_last_seen_wins (analyzed "كيف الى") 1);
    vm_compute; reflexivity.
Defined.

(** The two candidates of that token disagree on both scalars; the record
    keeps the second. *)
Example reshape_last_seen :
  reshape [entry "الى" "AlY" "|liy~" "|liy~/ADJ" "mechanical";
           entry "إلى" "<lY" "<ilaY" "<ilaY/PREP" "to"]
  = {| Processed.transl := py "<lY";
       Processed.arabic := py "إلى";
       Processed.solution := [py "|liy~"; py "<ilaY"];
       Processed.pos := [py "|liy~/ADJ"; py "<ilaY/PREP"];
       Processed.gloss := [py "mechanical"; py "to"] |}.
Proof. vm_compute. reflexivity. Qed.

(** ** Ambiguity *)

Lemma str_getitem_2 (s : pystr) :
  str_getitem s (KInt 2)
  = match s !! 2 with Some c => Return [c] | None => Raise IndexError end.
Proof.
  unfold str_getitem. change (KInt 2) with (KInt (Z.of_nat 2)).
  rewrite list_getitem_nat. by destruct (s !! 2).
Qed.

(** The inner loop of [ambig]: it returns exactly when every string has a
    position 2, and then [temp] has gained those characters in order. *)
Lemma ambig_inner (sols : list pystr) (temp : list pystr) (st : state) :
  for_in sols
    (fun sol temp1 => c <- lift (str_getitem sol (KInt 2)) ;;
                      ret (temp1 ++ [c])) temp st
  = match mapM (fun s : pystr => s !! 2) sols with
    | Some cs => (Return (temp ++ ((fun c => [c]) <$> cs)), st)
    | None => (Raise IndexError, st)
    end.
Proof.
  revert temp. induction sols as [|s sols IH]; intros temp; simpl.
  { by rewrite app_nil_r. }
  rewrite bind_assoc, bind_lift, str_getitem_2.
  destruct (s !! 2) as [c|]; simpl; [|done].
  rewrite bind_ret, IH.
  destruct (mapM _ sols) as [cs|]; simpl; [|done].
  by rewrite <- (assoc_L (++)).
Qed.

Lemma mapM_third_is_Some (sols : list pystr) :
  is_Some (mapM (fun s : pystr => s !! 2) sols)
  <-> Forall (fun s : pystr => 3 <= length s) sols.
Proof.
  rewrite mapM_is_Some. apply Forall_proper; [|done]. intros s. simpl.
  rewrite lookup_lt_is_Some. lia.
Qed.

Lemma len_set_gt_1 (l : list pystr) :
  1 < len_set l <-> exists x y, x ∈ l /\ y ∈ l /\ x <> y.
Proof.
  unfold len_set. set (X := list_to_set l : gset pystr). split.
  - intros Hsize.
    destruct (set_choose_L X) as [x Hxin].
    { intros Heq. rewrite Heq, size_empty in Hsize. lia. }
    destruct (set_choose_L (X ∖ {[x]})) as [y Hyin].
    { intros Heq. apply (f_equal size) in Heq.
      rewrite size_difference, size_singleton, size_empty in Heq
        by by apply singleton_subseteq_l.
      lia. }
    apply elem_of_difference in Hyin as [Hyin Hne].
    rewrite not_elem_of_singleton in Hne. subst X.
    rewrite elem_of_list_to_set in Hxin, Hyin. by eauto.
  - intros (x & y & Hxin & Hyin & Hne).
    assert ({[x]} ∪ {[y]} ⊆ X) as Hsub.
    { subst X. apply union_subseteq.
      split; apply singleton_subseteq_l; by rewrite elem_of_list_to_set. }
    apply subseteq_size in Hsub.
    rewrite size_union, !size_singleton in Hsub
      by by apply disjoint_singleton_l, not_elem_of_singleton.
    lia.
Qed.

(** With the characters at position 2 collected, the test
    [len(set(temp)) > 1] is [disagrees]. *)
Lemma len_set_disagrees (w : Processed.t) (cs : list N) :
  mapM (fun s : pystr => s !! 2) (Processed.solution w) = Some cs ->
  1 < len_set ((fun c => [c]) <$> cs) <-> disagrees w.
Proof.
  intros Hcs. rewrite len_set_gt_1. unfold disagrees.
  rewrite mapM_Some in Hcs. rewrite Exists_exists. split.
  - intros (x & y & Hx & Hy & Hne).
    apply list_elem_of_fmap in Hx as (c1 & -> & Hc1).
    apply list_elem_of_fmap in Hy as (c2 & -> & Hc2).
    apply list_elem_of_lookup in Hc1 as [i1 Hi1].
    apply list_elem_of_lookup in Hc2 as [i2 Hi2].
    destruct (Forall2_lookup_r _ _ _ _ _ Hcs Hi1) as (s1 & Hs1 & H1).
    destruct (Forall2_lookup_r _ _ _ _ _ Hcs Hi2) as (s2 & Hs2 & H2).
    exists s1. split; [by eapply list_elem_of_lookup_2|].
    apply Exists_exists. exists s2. split; [by eapply list_elem_of_lookup_2|].
    rewrite H1, H2. congruence.
  - intros (s1 & Hs1 & Hex). apply Exists_exists in Hex as (s2 & Hs2 & Hne).
    apply list_elem_of_lookup in Hs1 as [i1 Hi1].
    apply list_elem_of_lookup in Hs2 as [i2 Hi2].
    destruct (Forall2_lookup_l _ _ _ _ _ Hcs Hi1) as (c1 & Hc1 & H1).
    destruct (Forall2_lookup_l _ _ _ _ _ Hcs Hi2) as (c2 & Hc2 & H2).
    exists [c1], [c2]. repeat split.
    + apply list_elem_of_fmap. exists c1. split; [done|].
      by eapply list_elem_of_lookup_2.
    + apply list_elem_of_fmap. exists c2. split; [done|].
      by eapply list_elem_of_lookup_2.
    + rewrite H1, H2 in Hne. congruence.
Qed.

Lemma append_words_nil (st : state) : append_words [] st = st.
Proof.
  destruct st as [i [ad aw]]. unfold append_words. simpl.
  by rewrite app_nil_r.
Qed.

Lemma append_words_app (ws1 ws2 : list pystr) (st : state) :
  append_words ws2 (append_words ws1 st) = append_words (ws1 ++ ws2) st.
Proof. unfold append_words. simpl. by rewrite (assoc_L (++)). Qed.

Lemma ambig_body (w : Processed.t) (st : state) :
  ambig_turn w tt st
  = if decide (Forall (fun s : pystr => 3 <= length s) (Processed.solution w))
    then (Return tt,
          if decide (disagrees w)
          then append_words [Processed.arabic w] st else st)
    else (Raise IndexError, st).
Proof.
  cbv beta. rewrite bind_unfold, ambig_inner.
  destruct (mapM _ (Processed.solution w)) as [cs|] eqn:Hcs.
  - destruct (decide (Forall _ (Processed.solution w))) as [_|Hn].
    2:{ destruct Hn. apply mapM_third_is_Some. by rewrite Hcs. }
    simpl. pose proof (len_set_disagrees w cs Hcs) as Hiff.
    destruct (decide (disagrees w)) as [Hd|Hd];
      destruct (decide (1 < len_set _)) as [Hl|Hl]; try done; exfalso.
    + by apply Hl, Hiff.
    + by apply Hd, Hiff.
  - destruct (decide (Forall _ (Processed.solution w))) as [Hy|_]; [|done].
    apply mapM_third_is_Some in Hy. rewrite Hcs in Hy. by destruct Hy.
Qed.

Lemma ambig_loop_returns (pd : list Processed.t) (st : state) :
  indexable pd ->
  for_in pd ambig_turn tt st
  = (Return tt, append_words (Processed.arabic <$> filter disagrees pd) st).
Proof.
  intros Hidx. revert st.
  induction Hidx as [|w pd Hw _ IH]; intros st.
  { simpl. by rewrite append_words_nil. }
  cbn [for_in]. rewrite (bind_unfold _ _ st), ambig_body.
  rewrite decide_True by done. rewrite IH.
  destruct (decide (disagrees w)) as [Hd|Hd].
  - rewrite filter_cons_True by done. simpl. by rewrite append_words_app.
  - by rewrite filter_cons_False by done.
Qed.

Lemma ambig_loop_raises (pd : list Processed.t) (st : state) :
  ~ indexable pd ->
  fst (for_in pd ambig_turn tt st) = Raise IndexError.
Proof.
  unfold indexable. revert st. induction pd as [|w pd IH]; intros st Hidx.
  { destruct Hidx. constructor. }
  cbn [for_in]. rewrite (bind_unfold _ _ st), ambig_body.
  destruct (decide (Forall _ (Processed.solution w))) as [Hw|Hw]; [|done].
  apply IH. intros Hpd. apply Hidx. by constructor.
Qed.

Lemma ambig_unfold (st : state) :
  ambig st = for_in (processed_data (self st)) ambig_turn tt st.
Proof. reflexivity. Qed.

(** C5, amended. When every candidate solution string of every record has
    a position 2, [ambig] appends to [ambig_words] the [arabic] form of
    exactly the records whose solution strings take more than one value at
    position 2, in the order of [processed_data] and once per such record,
    after what the list already held. *)
Theorem ambig_appends_disagreeing (st : state) :
  indexable (processed_data (self st)) ->
  ambig st
  = (Return tt,
     append_words
       (Processed.arabic <$> filter disagrees (processed_data (self st))) st).
Proof.
  intros Hidx. rewrite ambig_unfold. by apply ambig_loop_returns.
Qed.

Lemma ambig_appends_disagreeing_witness :
  indexable (processed_data (self (analyzed "اخر كتب كيف اخر")))
  /\ ambig (analyzed "اخر كتب كيف اخر")
     = (Return tt,
        append_words
          (Processed.arabic
             <$> filter disagrees
                   (processed_data (self (analyzed "اخر كتب كيف اخر"))))
          (analyzed "اخر كتب كيف اخر")).
Proof.
  assert (indexable (processed_data (self (analyzed "اخر كتب كيف اخر"))))
    as H.
  { apply (bool_decide_eq_true_1 _). vm_compute. reflexivity. }
  split; [exact H|]. exact (ambig_appends_disagreeing _ H).
Defined.

(** C5, as stated, fails: record by record, being appended is not the same
    as disagreeing at position 2. On [اخر و الى] the third record has a
    position 2 in each of its solution strings and they disagree there, yet
    [ambig] raises at the string [wa] of the second record and the [arabic]
    form of the third never reaches [ambig_words]. *)
Lemma ambig_per_record_iff_fails :
  ~ (forall w : Processed.t,
       w ∈ processed_data (self (analyzed "اخر و الى")) ->
       (Processed.arabic w
          ∈ ambig_words (cls (snd (ambig (analyzed "اخر و الى"))))
        <-> disagrees w)).
Proof.
  intros Hiff.
  pose (w := reshape [entry "الى" "AlY" "|liy~" "|liy~/ADJ" "mechanical";
                      entry "إلى" "<lY" "<ilaY" "<ilaY/PREP" "to"]).
  assert (w ∈ processed_data (self (analyzed "اخر و الى"))) as Hin.
  { apply (list_elem_of_lookup_2 _ 2). vm_compute. reflexivity. }
  assert (disagrees w) as Hd.
  { apply (bool_decide_eq_true_1 _). vm_compute. reflexivity. }
  assert (Processed.arabic w
            ∉ ambig_words (cls (snd (ambig (analyzed "اخر و الى")))))
    as Hout.
  { apply (bool_decide_eq_false_1 _). vm_compute. reflexivity. }
  apply Hout, (Hiff w Hin), Hd.
Qed.

(** C10. [ambig] raises [IndexError] exactly when some candidate solution
    string of some record is shorter than 3; when every such string has
    length at least 3 the call returns, and it returns in no other case. *)
Theorem ambig_total_iff_indexable (st : state) :
  (fst (ambig st) <> Raise IndexError
   <-> indexable (processed_data (self st)))
  /\ (fst (ambig st) = Return tt
      <-> indexable (processed_data (self st))).
Proof.
  rewrite ambig_unfold.
  destruct (decide (indexable (processed_data (self st)))) as [H|H].
  - rewrite ambig_loop_returns by done. by repeat split.
  - rewrite ambig_loop_raises by done. by repeat split.
Qed.

(** A word met twice is appended twice; a word whose candidates agree at
    position 2 is not appended. *)
Example ambig_keeps_duplicates :
  ambig_words (cls (snd (ambig (analyzed "اخر كتب كيف اخر"))))
  = [py "اخر"; py "اخر"].
Proof. vm_compute. reflexivity. Qed.

(** The solution string [wa] has no position 2: the call raises there, and
    what was appended before stays. *)
Example ambig_short_solution :
  fst (ambig (analyzed "اخر و اخر")) = Raise IndexError
  /\ ambig_words (cls (snd (ambig (analyzed "اخر و اخر")))) = [py "اخر"].
Proof. split; vm_compute; reflexivity. Qed.

(** ** Analysis and extraction *)

Section ExtractData.
Context (lib : collaborators).

(** [analyze_text] hands [raw_data] to the analyzer as it is; what the
    analyzer raises propagates, what it returns is cached and reshaped. *)
Lemma analyze_text_spec (st : state) :
  analyze_text lib st
  = match analyzer_analyze_text lib (raw_data (self st)) with
    | Return data => (Return (fst data), cache (fst data) st)
    | Raise e => (Raise e, st)
    end.
Proof.
  unfold analyze_text. rewrite bind_get_self, bind_lift.
  destruct (analyzer_analyze_text lib _) as [data|e]; [|done].
  rewrite bind_unfold. simpl. rewrite bind_unfold, data_process_spec.
  reflexivity.
Qed.

Lemma first_field_raises (c : candidate) (cs : list candidate)
    (key : string) (st : state) :
  first_field (c :: cs) 0 key st = (Raise KeyError, st).
Proof. reflexivity. Qed.

(** Every outcome of [extract_data]. [analyze_text()] returns the list of
    tokens, which the assignment [data, _ = ...] unpacks. *)
Lemma extract_data_spec (st : state) :
  extract_data lib st
  = match analyzer_analyze_text lib (raw_data (self st)) with
    | Raise e => (Raise e, st)
    | Return data =>
      match fst data with
      | [ []; _ ] => (Return (analyzed_data (cls st)), cache (fst data) st)
      | [ _ :: _; _ ] => (Raise KeyError, cache (fst data) st)
      | _ => (Raise ValueError, cache (fst data) st)
      end
    end.
Proof.
  unfold extract_data. rewrite bind_unfold, analyze_text_spec.
  destruct (analyzer_analyze_text lib _) as [[d s]|e]; [|done]. simpl fst.
  rewrite bind_lift.
  destruct d as [|t0 [|t1 [|t2 d]]].
  - done.
  - by destruct t0.
  - simpl unpack2. cbv beta. simpl fst.
    destruct t0 as [|c t0]; [done|].
    unfold range. simpl seq. cbn [for_in].
    rewrite !bind_assoc, bind_unfold. cbn [fst].
    by rewrite first_field_raises.
  - by destruct t0.
Qed.

(** No call of [extract_data] appends a record. *)
Lemma extract_data_appends_nothing (st : state) :
  analyzed_data (cls (snd (extract_data lib st))) = analyzed_data (cls st).
Proof.
  rewrite extract_data_spec.
  destruct (analyzer_analyze_text lib _) as [[d s]|e]; [|done]. simpl fst.
  by destruct d as [|[|c t0] [|t1 [|t2 d]]].
Qed.

(** The loop of [search] keeps the [arabic] form of the records whose
    [root_transl] is the key. *)
Lemma search_loop (data : list Extracted.t) (key : pystr)
    (result : list pystr) (st : state) :
  for_in data
    (fun r result1 =>
       if decide (Extracted.root_transl r = key)
       then ret (result1 ++ [Extracted.arabic r])
       else ret result1) result st
  = (Return (result
             ++ (Extracted.arabic
                   <$> filter (fun r => Extracted.root_transl r = key) data)),
     st).
Proof.
  revert result. induction data as [|r data IH]; intros result; simpl.
  { by rewrite app_nil_r. }
  destruct (decide (Extracted.root_transl r = key)) as [Hr|Hr].
  - rewrite bind_ret, IH, filter_cons_True by done. simpl.
    by rewrite <- (assoc_L (++)).
  - by rewrite bind_ret, IH, filter_cons_False by done.
Qed.

(** Whenever the extraction inside [search] returns, [search] returns the
    set of the [arabic] forms of the records whose [root_transl] is the
    transliterated stem of the key. *)
Lemma search_spec (key : pystr) (st st1 : state) (data : list Extracted.t) :
  extract_data lib st = (Return data, st1) ->
  search lib key st
  = (Return
       (list_to_set
          (Extracted.arabic
             <$> filter (fun r => Extracted.root_transl r
                                  = transliteration lib (stem lib key))
                   data)),
     st1).
Proof.
  intros Hdata. unfold search. rewrite bind_unfold, Hdata, bind_unfold.
  by rewrite for_in_range, search_loop.
Qed.

(** An error of the extraction inside [search] is the error of [search]. *)
Lemma search_propagates (key : pystr) (st st1 : state) (e : exn) :
  extract_data lib st = (Raise e, st1) ->
  search lib key st = (Raise e, st1).
Proof. intros Hdata. unfold search. by rewrite bind_unfold, Hdata. Qed.

End ExtractData.

(** On a text whose extraction returns (two tokens, the first without
    candidates) the filter of [search] is seen at work. *)
Example search_filters_records :
  fst (search fixture (py "كتب") (with_records (Some (py "zz كتب"))))
  = Return {[ py "كتب" ]}
  /\ fst (search fixture (py "اخر") (with_records (Some (py "zz كتب"))))
     = Return ∅.
Proof. split; vm_compute; reflexivity. Qed.

(** C1. On a text of one token with one candidate the analysis is there, yet
    [extract_data] raises [ValueError] at [data, _ = self.analyze_text()]
    and appends no record; on a text of two tokens it raises [KeyError] at
    [data[i][0]], again with no record appended. *)
Theorem extract_data_raises_on_analysis :
  full_analyzed_data (self (analyzed "كيف"))
  = [[entry "كيف" "kyf" "kayofa" "kayofa/INTERROG_PART" "how"]]
  /\ extract_data fixture (fresh (Some (py "كيف")))
     = (Raise ValueError, analyzed "كيف")
  /\ analyzed_data (cls (analyzed "كيف")) = []
  /\ length <$> full_analyzed_data (self (analyzed "كيف كتب")) = [1; 2]
  /\ extract_data fixture (fresh (Some (py "كيف كتب")))
     = (Raise KeyError, analyzed "كيف كتب")
  /\ analyzed_data (cls (analyzed "كيف كتب")) = [].
Proof. repeat split; vm_compute; reflexivity. Qed.

(** C2. With the raw text the one word of the key, [search] raises
    [ValueError], the error of the extraction it starts with, where the set
    holding that word was to be returned. *)
Theorem search_raises_on_analysis :
  search fixture (py "كيف") (fresh (Some (py "كيف")))
  = (Raise ValueError, analyzed "كيف").
Proof.
  apply search_propagates. vm_compute. reflexivity.
Qed.

(** C6. The analyzer yields no candidate for the word [zz]. On the text of
    that one word [extract_data] raises [ValueError] at
    [data, _ = self.analyze_text()]; on [كتب zz] it raises [KeyError] at
    [data[i][0]]. In neither run is the token without candidates skipped or
    given a record: the call ends there and [analyzed_data] is empty. *)
Theorem extract_data_zero_candidates_unhandled :
  full_analyzed_data (self (analyzed "zz")) = [[]]
  /\ extract_data fixture (fresh (Some (py "zz")))
     = (Raise ValueError, analyzed "zz")
  /\ analyzed_data (cls (analyzed "zz")) = []
  /\ length <$> full_analyzed_data (self (analyzed "كتب zz")) = [2; 0]
  /\ extract_data fixture (fresh (Some (py "كتب zz")))
     = (Raise KeyError, analyzed "كتب zz")
  /\ analyzed_data (cls (analyzed "كتب zz")) = [].
Proof. repeat split; vm_compute; reflexivity. Qed.

(** C7, as stated, fails: with no raw text the call ends in the
    [TypeError] the analyzer raises on [None], not in a condition of its
    own. *)
Lemma analyze_text_absent_input_raises :
  raw_data (self (fresh None)) = None
  /\ analyze_text fixture (fresh None) = (Raise TypeError, fresh None)
  /\ fst (analyze_text fixture (fresh None)) <> Raise InputError.
Proof.
  split; [reflexivity|]. split; [vm_compute; reflexivity|].
  vm_compute. discriminate.
Qed.

(** C7, amended. Called with no raw text, [analyze_text] makes no check of
    its own: it hands [None] to the analyzer; an error the analyzer raises is
    the error of the call, with nothing cached, and an analysis it returns is
    cached, reshaped and returned as for any text. *)
Theorem analyze_text_absent_input (lib : collaborators) (st : state) :
  raw_data (self st) = None ->
  analyze_text lib st
  = match analyzer_analyze_text lib None with
    | Return data => (Return (fst data), cache (fst data) st)
    | Raise e => (Raise e, st)
    end.
Proof. intros Hraw. by rewrite analyze_text_spec, Hraw. Qed.

Lemma analyze_text_absent_input_witness :
  raw_data (self (fresh None)) = None
  /\ analyze_text fixture (fresh None)
     = match analyzer_analyze_text fixture None with
       | Return data => (Return (fst data), cache (fst data) (fresh None))
       | Raise e => (Raise e, fresh None)
       end.
Proof.
  split; [reflexivity|].
  apply (analyze_text_absent_input fixture (fresh None)). reflexivity.
Defined.

(** C8. On a text of one token, two calls of [extract_data] in succession
    both raise [ValueError] and [analyzed_data] is empty after them, where
    two copies of the record of that token were to be there. *)
Theorem extract_data_twice_appends_nothing :
  fst (extract_data fixture (fresh (Some (py "كيف")))) = Raise ValueError
  /\ fst (extract_data fixture
            (snd (extract_data fixture (fresh (Some (py "كيف"))))))
     = Raise ValueError
  /\ analyzed_data
       (cls (snd (extract_data fixture
                    (snd (extract_data fixture
                            (fresh (Some (py "كيف")))))))) = [].
Proof. repeat split; vm_compute; reflexivity. Qed.

(** ** Several instances *)

(** What [self.x = v] binds stays with the instance: a call through [a]
    leaves the attributes of every other instance as they were. *)
Lemma invoke_other (lib : collaborators) (a b : nat) (c : call) (w : world) :
  a <> b -> heap (invoke lib a c w) !! b = heap w !! b.
Proof.
  intros Hab. unfold invoke. destruct (heap w !! a) as [i|]; [|done].
  simpl. by rewrite lookup_insert_ne.
Qed.

Lemma invoke_all_other (lib : collaborators) (a b : nat) (cs : list call)
    (w : world) :
  a <> b -> heap (invoke_all lib a cs w) !! b = heap w !! b.
Proof.
  intros Hab. unfold invoke_all. revert w.
  induction cs as [|c cs IH]; intros w; simpl; [done|].
  by rewrite IH, invoke_other.
Qed.

(** The two lists of the class body are another matter: what [ambig]
    appends through [a] is read through every other instance [b]. *)
Lemma invoke_ambig_other (lib : collaborators) (a b : nat) (w : world)
    (ia ib : instance) :
  a <> b ->
  heap w !! a = Some ia ->
  heap w !! b = Some ib ->
  indexable (processed_data ia) ->
  observe b (invoke lib a Call_ambig w)
  = Some (processed_data ib,
          analyzed_data (Arabica w),
          ambig_words (Arabica w)
            ++ (Processed.arabic <$> filter disagrees (processed_data ia)),
          corpus ib).
Proof.
  intros Hab Ha Hb Hidx. unfold observe, invoke. rewrite Ha. simpl.
  rewrite lookup_insert_ne, Hb by done.
  by rewrite ambig_unfold, ambig_loop_returns.
Qed.

(** C9. Two instances; [analyze_text()] then [ambig()] are called on the
    first. Read through the second, on which nothing was called,
    [ambig_words] was empty before and holds a word of the first one's text
    after. *)
Theorem ambig_words_shared_between_instances :
  observe 1 two_instances = Some ([], [], [], CorpusStr [])
  /\ observe 1 (invoke_all fixture 0 [Call_analyze_text; Call_ambig]
                 two_instances)
     = Some ([], [], [py "اخر"], CorpusStr []).
Proof. split; vm_compute; reflexivity. Qed.

(** * Further properties *)

(** ** Reshaping, key by key *)

Lemma last_cons_default {A} (x d : A) (l : list A) :
  default d (last (x :: l)) = default x (last l).
Proof. rewrite last_cons. by destruct (last l). Qed.

Lemma reshape_fold_eg (cs : list candidate) (loc : locals) :
  eg (foldl (fun loc1 c => absorb c loc1) loc cs)
  = default (eg loc) (last (omap (fun c : candidate => c !! py "transl") cs)).
Proof.
  revert loc. induction cs as [|c cs IH]; intros loc; simpl; [done|].
  rewrite IH. simpl. destruct (c !! py "transl"); simpl; [|done].
  by rewrite last_cons_default.
Qed.

Lemma reshape_fold_ar (cs : list candidate) (loc : locals) :
  ar (foldl (fun loc1 c => absorb c loc1) loc cs)
  = default (ar loc) (last (omap (fun c : candidate => c !! py "arabic") cs)).
Proof.
  revert loc. induction cs as [|c cs IH]; intros loc; simpl; [done|].
  rewrite IH. simpl. destruct (c !! py "arabic"); simpl; [|done].
  by rewrite last_cons_default.
Qed.

(** X1. [data_process] never raises on a missing key and never reads
    another key: for every token, each list of its record holds the values
    of the candidates that carry the key, in order, and each scalar the
    value of the last candidate that carries the key, [''] when none does. *)
Theorem data_process_records (st : state) :
  fst (data_process st) = Return tt
  /\ Forall2
       (fun (cs : list candidate) (r : Processed.t) =>
          Processed.transl r
          = default [] (last (omap (fun c : candidate => c !! py "transl") cs))
          /\ Processed.arabic r
             = default []
                 (last (omap (fun c : candidate => c !! py "arabic") cs))
          /\ Processed.solution r
             = omap (fun c : candidate => c !! py "solution") cs
          /\ Processed.pos r = omap (fun c : candidate => c !! py "pos") cs
          /\ Processed.gloss r
             = omap (fun c : candidate => c !! py "gloss") cs)
       (full_analyzed_data (self st))
       (processed_data (self (snd (data_process st)))).
Proof.
  split; [apply data_process_returns|].
  rewrite data_process_processed_data.
  apply Forall2_fmap_r, Forall_Forall2_diag, Forall_forall.
  intros cs _. unfold reshape. simpl.
  rewrite reshape_fold_eg, reshape_fold_ar, reshape_fold_solution,
    reshape_fold_pos, reshape_fold_gloss.
  done.
Qed.

(** X2. A token for which the analyzer produced no candidate still gets a
    record: both scalars are [''] and the three lists are empty. *)
Theorem data_process_no_candidates (st : state) (k : nat) :
  full_analyzed_data (self st) !! k = Some [] ->
  processed_data (self (snd (data_process st))) !! k
  = Some {| Processed.transl := []; Processed.arabic := [];
            Processed.solution := []; Processed.pos := [];
            Processed.gloss := [] |}.
Proof.
  intros Hk. by rewrite data_process_processed_data, list_lookup_fmap, Hk.
Qed.

Lemma data_process_no_candidates_witness :
  full_analyzed_data (self (analyzed "كيف zz")) !! 1 = Some []
  /\ processed_data (self (snd (data_process (analyzed "كيف zz")))) !! 1
     = Some {| Processed.transl := []; Processed.arabic := [];
               Processed.solution := []; Processed.pos := [];
               Processed.gloss := [] |}.
Proof.
  assert (full_analyzed_data (self (analyzed "كيف zz")) !! 1 = Some [])
    as H by (vm_compute; reflexivity).
  split; [exact H|]. exact (data_process_no_candidates _ 1 H).
Defined.

Lemma absorb_same_fields (c1 c2 : candidate) (loc : locals) :
  same_fields c1 c2 -> absorb c1 loc = absorb c2 loc.
Proof. intros (Ht & Ha & Hs & Hp & Hg). unfold absorb. congruence. Qed.

Lemma reshape_same_fields (cs1 cs2 : list candidate) :
  Forall2 same_fields cs1 cs2 -> reshape cs1 = reshape cs2.
Proof.
  intros H. unfold reshape. generalize no_locals.
  induction H as [|c1 c2 cs1 cs2 Hc _ IH]; intros loc; simpl; [done|].
  rewrite (absorb_same_fields c1 c2) by done. apply IH.
Qed.

Lemma reshape_all_same_fields (d1 d2 : list (list candidate)) :
  Forall2 (Forall2 same_fields) d1 d2 -> reshape <$> d1 = reshape <$> d2.
Proof.
  induction 1 as [|cs1 cs2 d1 d2 Hcs _ IH]; [done|].
  rewrite !fmap_cons. f_equal; [by apply reshape_same_fields|done].
Qed.

(** X3. Only the keys [transl], [arabic], [solution], [pos] and [gloss] of a
    candidate reach [processed_data]: two analyses whose candidates agree on
    those five keys are reshaped into the same records, whatever else the
    mappings hold. *)
Theorem data_process_reads_five_keys (st1 st2 : state) :
  Forall2 (Forall2 same_fields)
    (full_analyzed_data (self st1)) (full_analyzed_data (self st2)) ->
  processed_data (self (snd (data_process st1)))
  = processed_data (self (snd (data_process st2))).
Proof.
  intros H. rewrite !data_process_processed_data.
  by apply reshape_all_same_fields.
Qed.

Lemma data_process_reads_five_keys_witness :
  Forall2 (Forall2 same_fields)
    (full_analyzed_data
       (self (holding
                [[<[py "lemma" := py "kayofa_1"]>
                    (entry "كيف" "kyf" "kayofa" "kayofa/INTERROG_PART"
                           "how")]])))
    (full_analyzed_data
       (self (holding
                [[entry "كيف" "kyf" "kayofa" "kayofa/INTERROG_PART"
                        "how"]])))
  /\ processed_data
       (self (snd (data_process
                     (holding
                        [[<[py "lemma" := py "kayofa_1"]>
                            (entry "كيف" "kyf" "kayofa"
                                   "kayofa/INTERROG_PART" "how")]]))))
     = processed_data
         (self (snd (data_process
                       (holding
                          [[entry "كيف" "kyf" "kayofa"
                                  "kayofa/INTERROG_PART" "how"]])))).
Proof.
  assert (Forall2 (Forall2 same_fields)
            (full_analyzed_data
               (self (holding
                        [[<[py "lemma" := py "kayofa_1"]>
                            (entry "كيف" "kyf" "kayofa"
                                   "kayofa/INTERROG_PART" "how")]])))
            (full_analyzed_data
               (self (holding
                        [[entry "كيف" "kyf" "kayofa" "kayofa/INTERROG_PART"
                                "how"]])))) as H.
  { apply (bool_decide_eq_true_1 _). vm_compute. reflexivity. }
  split; [exact H|]. exact (data_process_reads_five_keys _ _ H).
Defined.

(** X4. [data_process] rebinds [processed_data] and nothing else, and
    rebuilds it from [full_analyzed_data] alone: run again, it leaves the
    state of the first run. *)
Theorem data_process_rebuilds (st : state) :
  raw_data (self (snd (data_process st))) = raw_data (self st)
  /\ corpus (self (snd (data_process st))) = corpus (self st)
  /\ full_analyzed_data (self (snd (data_process st)))
     = full_analyzed_data (self st)
  /\ cls (snd (data_process st)) = cls st
  /\ data_process (snd (data_process st)) = data_process st.
Proof.
  rewrite (data_process_spec (snd (data_process st))).
  by rewrite !data_process_spec.
Qed.

(** ** Analysis *)

(** X5. [analyze_text] replaces what it cached, it does not add to it:
    called twice in succession it returns what one call returns and leaves
    the state one call leaves. *)
Theorem analyze_text_twice (lib : collaborators) (st : state) :
  (analyze_text lib ;;; analyze_text lib) st = analyze_text lib st.
Proof.
  rewrite bind_unfold, analyze_text_spec.
  destruct (analyzer_analyze_text lib (raw_data (self st))) as [data|e] eqn:Hd;
    [|done].
  rewrite analyze_text_spec. simpl raw_data. by rewrite Hd.
Qed.

(** X6. When the analyzer returns, [analyze_text] returns the first part of
    its result, caches it in [full_analyzed_data], rebinds [processed_data]
    to one record per token, and leaves [raw_data], [corpus],
    [analyzed_data] and [ambig_words] as they were. *)
Theorem analyze_text_caches (lib : collaborators) (st : state)
    (d : list (list candidate)) (s : list pystr) :
  analyzer_analyze_text lib (raw_data (self st)) = Return (d, s) ->
  fst (analyze_text lib st) = Return d
  /\ full_analyzed_data (self (snd (analyze_text lib st))) = d
  /\ length (processed_data (self (snd (analyze_text lib st)))) = length d
  /\ raw_data (self (snd (analyze_text lib st))) = raw_data (self st)
  /\ corpus (self (snd (analyze_text lib st))) = corpus (self st)
  /\ cls (snd (analyze_text lib st)) = cls st.
Proof.
  intros Hd. rewrite analyze_text_spec, Hd. simpl.
  by rewrite length_fmap.
Qed.

Lemma analyze_text_caches_witness :
  analyzer_analyze_text fixture (raw_data (self (fresh (Some (py "كيف اخر")))))
  = Return (fmap (fun w => fst (lexicon_find w)) [py "كيف"; py "اخر"],
            [py "kyf"; py "Axr"; py ">xr"])
  /\ fst (analyze_text fixture (fresh (Some (py "كيف اخر"))))
     = Return (fmap (fun w => fst (lexicon_find w)) [py "كيف"; py "اخر"])
  /\ full_analyzed_data
       (self (snd (analyze_text fixture (fresh (Some (py "كيف اخر"))))))
     = fmap (fun w => fst (lexicon_find w)) [py "كيف"; py "اخر"]
  /\ length (processed_data
               (self (snd (analyze_text fixture
                             (fresh (Some (py "كيف اخر")))))))
     = length (fmap (fun w => fst (lexicon_find w)) [py "كيف"; py "اخر"])
  /\ raw_data (self (snd (analyze_text fixture (fresh (Some (py "كيف اخر"))))))
     = raw_data (self (fresh (Some (py "كيف اخر"))))
  /\ corpus (self (snd (analyze_text fixture (fresh (Some (py "كيف اخر"))))))
     = corpus (self (fresh (Some (py "كيف اخر"))))
  /\ cls (snd (analyze_text fixture (fresh (Some (py "كيف اخر")))))
     = cls (fresh (Some (py "كيف اخر"))).
Proof.
  assert (analyzer_analyze_text fixture
            (raw_data (self (fresh (Some (py "كيف اخر")))))
          = Return (fmap (fun w => fst (lexicon_find w))
                         [py "كيف"; py "اخر"],
                    [py "kyf"; py "Axr"; py ">xr"])) as H
    by (vm_compute; reflexivity).
  split; [exact H|].
  exact (analyze_text_caches fixture (fresh (Some (py "كيف اخر"))) _ _ H).
Defined.

(** X7. When the analyzer raises, [analyze_text] raises the same error and
    rebinds nothing: the analysis and the records of an earlier call stay
    cached. *)
Theorem analyze_text_failure (lib : collaborators) (st : state) (e : exn) :
  analyzer_analyze_text lib (raw_data (self st)) = Raise e ->
  analyze_text lib st = (Raise e, st).
Proof. intros He. by rewrite analyze_text_spec, He. Qed.

Lemma analyze_text_failure_witness :
  analyzer_analyze_text fixture
    (raw_data (self (holding [[entry "و" "w" "wa" "wa/CONJ" "and"]])))
  = Raise TypeError
  /\ analyze_text fixture (holding [[entry "و" "w" "wa" "wa/CONJ" "and"]])
     = (Raise TypeError, holding [[entry "و" "w" "wa" "wa/CONJ" "and"]]).
Proof.
  split; [reflexivity|].
  apply (analyze_text_failure fixture). reflexivity.
Defined.

Lemma foldl_snoc_fmap {A B} (f : A -> B) (l : list A) (acc : list B) :
  foldl (fun acc1 x => acc1 ++ [f x]) acc l = acc ++ (f <$> l).
Proof.
  revert acc. induction l as [|x l IH]; intros acc; simpl.
  { by rewrite app_nil_r. }
  by rewrite IH, <- (assoc_L (++)).
Qed.

(** X8. [pam_stem] analyses the word it is given and returns the
    reverse transliteration of each entry of the second part of the result,
    in order; an error of the analyzer is its error; either way it caches
    nothing and appends nothing. *)
Theorem pam_stem_outcome (lib : collaborators) (str : pystr) (st : state) :
  pam_stem lib str st
  = match analyzer_analyze_text lib (Some str) with
    | Return data => (Return (reverse_transliteration lib <$> snd data), st)
    | Raise e => (Raise e, st)
    end.
Proof.
  unfold pam_stem. rewrite bind_lift.
  destruct (analyzer_analyze_text lib (Some str)) as [data|e]; [|done].
  by rewrite for_in_ret, foldl_snoc_fmap.
Qed.

(** ** Ambiguity, on every input *)

Lemma ambig_loop_state (pd : list Processed.t) (st : state) :
  snd (for_in pd ambig_turn tt st)
  = append_words (Processed.arabic <$> filter disagrees (visited pd)) st.
Proof.
  revert st. induction pd as [|w pd IH]; intros st.
  { simpl. by rewrite append_words_nil. }
  cbn [for_in visited]. rewrite (bind_unfold _ _ st), ambig_body.
  destruct (decide (Forall _ (Processed.solution w))) as [Hw|Hw].
  - rewrite IH. destruct (decide (disagrees w)) as [Hd|Hd].
    + rewrite filter_cons_True by done. simpl. by rewrite append_words_app.
    + by rewrite filter_cons_False by done.
  - simpl. by rewrite append_words_nil.
Qed.

(** X9. Whether [ambig] returns or raises, it changes nothing but
    [ambig_words], and that list only grows: after the call it is the old
    list followed by the [arabic] forms of the disagreeing records among
    those before the first record with a solution string shorter than 3. *)
Theorem ambig_appends_visited (st : state) :
  snd (ambig st)
  = append_words
      (Processed.arabic
         <$> filter disagrees (visited (processed_data (self st)))) st.
Proof. rewrite ambig_unfold. apply ambig_loop_state. Qed.

(** X10. [ambig] does not reset [ambig_words]: called twice in succession on
    records that all have a position 2, it appends the same words twice. *)
Theorem ambig_twice (st : state) :
  indexable (processed_data (self st)) ->
  (ambig ;;; ambig) st
  = (Return tt,
     append_words
       ((Processed.arabic <$> filter disagrees (processed_data (self st)))
        ++ (Processed.arabic
              <$> filter disagrees (processed_data (self st)))) st).
Proof.
  intros Hidx. rewrite bind_unfold, ambig_unfold, ambig_loop_returns by done.
  rewrite ambig_unfold. simpl self.
  by rewrite ambig_loop_returns, append_words_app.
Qed.

Lemma ambig_twice_witness :
  indexable (processed_data (self (analyzed "كيف اخر")))
  /\ (ambig ;;; ambig) (analyzed "كيف اخر")
     = (Return tt,
        append_words
          ((Processed.arabic
              <$> filter disagrees
                    (processed_data (self (analyzed "كيف اخر"))))
           ++ (Processed.arabic
                 <$> filter disagrees
                       (processed_data (self (analyzed "كيف اخر")))))
          (analyzed "كيف اخر")).
Proof.
  assert (indexable (processed_data (self (analyzed "كيف اخر")))) as H.
  { apply (bool_decide_eq_true_1 _). vm_compute. reflexivity. }
  split; [exact H|]. exact (ambig_twice _ H).
Defined.

Lemma single_solution_agrees (w : Processed.t) :
  length (Processed.solution w) <= 1 -> ~ disagrees w.
Proof.
  unfold disagrees. destruct (Processed.solution w) as [|s [|s' l]]; simpl.
  - intros _ H. by apply Exists_nil in H.
  - intros _ H. apply Exists_cons in H as [H|H]; [|by apply Exists_nil in H].
    apply Exists_cons in H as [H|H]; [done|by apply Exists_nil in H].
  - lia.
Qed.

Lemma visited_Forall (P : Processed.t -> Prop) (pd : list Processed.t) :
  Forall P pd -> Forall P (visited pd).
Proof.
  induction 1 as [|w pd Hw _ IH]; simpl; [done|].
  case_decide; by constructor.
Qed.

Lemma filter_disagrees_nil (pd : list Processed.t) :
  Forall (fun w => ~ disagrees w) pd -> filter disagrees pd = [].
Proof.
  induction 1 as [|w pd Hw _ IH]; [done|].
  by rewrite filter_cons_False.
Qed.

(** X11. When no record has more than one candidate solution, [ambig]
    appends nothing and leaves the whole state as it was, whether it returns
    or raises on a short solution string. *)
Theorem ambig_single_candidates (st : state) :
  Forall (fun w => length (Processed.solution w) <= 1)
    (processed_data (self st)) ->
  snd (ambig st) = st.
Proof.
  intros Hone. rewrite ambig_unfold, ambig_loop_state.
  rewrite filter_disagrees_nil; [apply append_words_nil|].
  apply visited_Forall. eapply Forall_impl; [exact Hone|].
  apply single_solution_agrees.
Qed.

Lemma ambig_single_candidates_witness :
  Forall (fun w => length (Processed.solution w) <= 1)
    (processed_data (self (analyzed "كيف و")))
  /\ snd (ambig (analyzed "كيف و")) = analyzed "كيف و".
Proof.
  assert (Forall (fun w => length (Processed.solution w) <= 1)
            (processed_data (self (analyzed "كيف و")))) as H.
  { apply (bool_decide_eq_true_1 _). vm_compute. reflexivity. }
  split; [exact H|]. exact (ambig_single_candidates _ H).
Defined.

(** ** Analysis, then ambiguity *)

Lemma solutions_indexable_reshape (d : list (list candidate)) :
  solutions_indexable d -> indexable (reshape <$> d).
Proof.
  unfold solutions_indexable, indexable. intros Hd.
  apply Forall_fmap. eapply Forall_impl; [exact Hd|].
  intros cs Hcs. unfold reshape. simpl. rewrite reshape_fold_solution. simpl.
  induction Hcs as [|c cs Hc _ IH]; simpl; [done|].
  destruct (c !! py "solution"); [by constructor|done].
Qed.

(** X12. [analyze_text()] followed by [ambig()], the two calls the module
    makes when it is loaded: when the analyzer returns an analysis whose
    solution strings all have a position 2, both calls return, the analysis
    is cached and reshaped, and [ambig_words] gains the [arabic] form of the
    tokens whose solution strings disagree at position 2, in the order of
    the text. *)
Theorem analyze_then_ambig (lib : collaborators) (st : state)
    (d : list (list candidate)) (s : list pystr) :
  analyzer_analyze_text lib (raw_data (self st)) = Return (d, s) ->
  solutions_indexable d ->
  (analyze_text lib ;;; ambig) st
  = (Return tt,
     append_words (Processed.arabic <$> filter disagrees (reshape <$> d))
       (cache d st)).
Proof.
  intros Hd Hidx. rewrite bind_unfold, analyze_text_spec, Hd. simpl fst.
  rewrite ambig_unfold. simpl self.
  by rewrite ambig_loop_returns by by apply solutions_indexable_reshape.
Qed.

Lemma analyze_then_ambig_witness :
  analyzer_analyze_text fixture
    (raw_data (self (fresh (Some (py "كيف اخر")))))
  = Return (fmap (fun w => fst (lexicon_find w)) [py "كيف"; py "اخر"],
            [py "kyf"; py "Axr"; py ">xr"])
  /\ solutions_indexable
       (fmap (fun w => fst (lexicon_find w)) [py "كيف"; py "اخر"])
  /\ (analyze_text fixture ;;; ambig) (fresh (Some (py "كيف اخر")))
     = (Return tt,
        append_words
          (Processed.arabic
             <$> filter disagrees
                   (reshape
                      <$> fmap (fun w => fst (lexicon_find w))
                            [py "كيف"; py "اخر"]))
          (cache (fmap (fun w => fst (lexicon_find w)) [py "كيف"; py "اخر"])
                 (fresh (Some (py "كيف اخر"))))).
Proof.
  assert (analyzer_analyze_text fixture
            (raw_data (self (fresh (Some (py "كيف اخر")))))
          = Return (fmap (fun w => fst (lexicon_find w))
                         [py "كيف"; py "اخر"],
                    [py "kyf"; py "Axr"; py ">xr"])) as Hd
    by (vm_compute; reflexivity).
  assert (solutions_indexable
            (fmap (fun w => fst (lexicon_find w)) [py "كيف"; py "اخر"]))
    as Hidx.
  { apply (bool_decide_eq_true_1 _). vm_compute. reflexivity. }
  split; [exact Hd|]. split; [exact Hidx|].
  exact (analyze_then_ambig fixture (fresh (Some (py "كيف اخر"))) _ _
           Hd Hidx).
Defined.

(** On that text the second token is the one appended: its three solution
    strings have [a], [i] and [x] at position 2. *)
Example analyze_then_ambig_sample :
  ambig_words
    (cls (snd ((analyze_text fixture ;;; ambig)
                 (fresh (Some (py "كيف اخر"))))))
  = [py "اخر"].
Proof. vm_compute. reflexivity. Qed.

(** The module's own sentence on the fixture, which knows its first word
    only: the script returns and no word is appended. *)
Example module_script_on_fixture :
  fst (module_script fixture) = Return tt
  /\ length (processed_data (self (snd (module_script fixture)))) = 7
  /\ ambig_words (cls (snd (module_script fixture))) = [].
Proof. repeat split; vm_compute; reflexivity. Qed.

(** ** Extraction and search, on every input *)

(** X13. [extract_data] never appends a record, and it returns only in one
    case: the analysis has exactly two tokens and the first has no
    candidate. What it returns then is [analyzed_data] as it was. *)
Theorem extract_data_returns_iff (lib : collaborators) (st : state) :
  cls (snd (extract_data lib st)) = cls st
  /\ forall data : list Extracted.t,
       fst (extract_data lib st) = Return data
       <-> data = analyzed_data (cls st)
           /\ exists (t : list candidate) (s : list pystr),
                analyzer_analyze_text lib (raw_data (self st))
                = Return ([[]; t], s).
Proof.
  rewrite extract_data_spec.
  destruct (analyzer_analyze_text lib (raw_data (self st))) as [[d s]|e].
  - simpl fst.
    destruct d as [|[|c t0] [|t1 [|t2 d]]]; simpl; (split; [done|]);
      intros data; split;
      try (intros [_ (t & s1 & Heq)]; discriminate Heq);
      try discriminate.
    + intros [= <-]. eauto.
    + by intros [-> _].
  - simpl. split; [done|]. intros data. split; [discriminate|].
    intros [_ (t & s1 & Heq)]. discriminate Heq.
Qed.

(** X14. [search] returns exactly when the extraction it starts with
    returns, and then its result is the set of the [arabic] forms of the
    records already in [analyzed_data] whose [root_transl] is the
    transliterated stem of the key; it never changes [analyzed_data] or
    [ambig_words]. *)
Theorem search_returns_iff (lib : collaborators) (key : pystr) (st : state) :
  cls (snd (search lib key st)) = cls st
  /\ forall res : gset pystr,
       fst (search lib key st) = Return res
       <-> res = list_to_set
                   (Extracted.arabic
                      <$> filter (fun r => Extracted.root_transl r
                                           = transliteration lib (stem lib key))
                            (analyzed_data (cls st)))
           /\ exists (t : list candidate) (s : list pystr),
                analyzer_analyze_text lib (raw_data (self st))
                = Return ([[]; t], s).
Proof.
  pose proof (extract_data_spec lib st) as Hspec.
  destruct (analyzer_analyze_text lib (raw_data (self st))) as [[d s]|e].
  - simpl fst in Hspec.
    destruct d as [|[|c t0] [|t1 [|t2 d]]];
      try (rewrite (search_propagates lib key _ _ _ Hspec); simpl;
           (split; [done|]); intros res; split; [discriminate|];
           intros [_ (t & s1 & Heq)]; discriminate Heq).
    rewrite (search_spec lib key _ _ _ Hspec). simpl. split; [done|].
    intros res. split.
    + intros [= <-]. eauto.
    + by intros [-> _].
  - rewrite (search_propagates lib key _ _ _ Hspec). simpl. split; [done|].
    intros res. split; [discriminate|].
    intros [_ (t & s1 & Heq)]. discriminate Heq.
Qed.

(** ** The corpus *)

(** X15. [load_corpus] rebinds [corpus] and nothing else, and it replaces:
    after two files read in succession, [corpus] holds the sentences of the
    second alone. *)
Theorem load_corpus_replaces (lib : collaborators) (f1 f2 c1 c2 : pystr)
    (st : state) :
  open_read lib f1 = Return c1 ->
  open_read lib f2 = Return c2 ->
  (load_corpus lib f1 ;;; load_corpus lib f2) st
  = (Return tt,
     {| self := {| raw_data := raw_data (self st);
                   corpus := CorpusSents (segmenter_tokenize lib c2);
                   full_analyzed_data := full_analyzed_data (self st);
                   processed_data := processed_data (self st) |};
        cls := cls st |}).
Proof.
  intros H1 H2. unfold load_corpus, bind, lift, set_corpus.
  rewrite H1. cbn. by rewrite H2.
Qed.

Lemma load_corpus_replaces_witness :
  open_read fixture_files (py "4.txt") = Return (py "كيف كتب. اخر")
  /\ open_read fixture_files (py "5.txt") = Return (py "و")
  /\ (load_corpus fixture_files (py "4.txt")
        ;;; load_corpus fixture_files (py "5.txt")) (fresh None)
     = (Return tt,
        {| self := {| raw_data := raw_data (self (fresh None));
                      corpus :=
                        CorpusSents
                          (segmenter_tokenize fixture_files (py "و"));
                      full_analyzed_data :=
                        full_analyzed_data (self (fresh None));
                      processed_data := processed_data (self (fresh None)) |};
           cls := cls (fresh None) |}).
Proof.
  assert (open_read fixture_files (py "4.txt") = Return (py "كيف كتب. اخر"))
    as H1 by (vm_compute; reflexivity).
  assert (open_read fixture_files (py "5.txt") = Return (py "و"))
    as H2 by (vm_compute; reflexivity).
  split; [exact H1|]. split; [exact H2|].
  exact (load_corpus_replaces fixture_files _ _ _ _ (fresh None) H1 H2).
Defined.
